(** * dev-environment-manager: the session lifecycle of pkg.go and cmd.go

    A shallow embedding of the Go sources [pkg.go] and [cmd.go].

    - Go strings are [string] (byte sequences); [fmt.Sprintf] with [%s]
      verbs is string concatenation.
    - The process-wide viper configuration is a tree of nested maps
      ([viper.value]), read and written through '.'-delimited,
      case-insensitive keys.
    - Everything outside the process (operating system, git transport,
      Docker engine, the interactive [docker exec], the configuration file)
      is an interface, the class [Platform]; the functions of pkg.go are
      written once against it, in a state-and-error monad that also records
      every outgoing call in a log.
    - [Sim] is one concrete platform, with an engine that keeps container
      names unique as Docker does; it is used to run the functions. *)

From Stdlib Require Import Ascii.
From stdpp Require Import gmap strings list pretty.

Open Scope string_scope.
Open Scope list_scope.

(** ** Go's [strings] package, as far as pkg.go and viper use it *)

Module strings.

(** [strings.ToLower] on ASCII text: the bytes 'A'..'Z' become 'a'..'z',
    every other byte is kept.  (Go also lower-cases letters outside ASCII;
    names are taken to be ASCII here.) *)
Definition lower_byte (c : ascii) : ascii :=
  let n := Ascii.N_of_ascii c in
  if ((65 <=? n) && (n <=? 90))%N then Ascii.ascii_of_N (n + 32) else c.

Fixpoint ToLower (s : string) : string :=
  match s with
  | EmptyString => EmptyString
  | String c r => String (lower_byte c) (ToLower r)
  end.

(** [strings.Contains(s, sep)] for a one-byte [sep]. *)
Fixpoint Contains (s : string) (sep : ascii) : bool :=
  match s with
  | EmptyString => false
  | String c r => if decide (c = sep) then true else Contains r sep
  end.

(** [strings.Split(s, sep)] for a one-byte [sep]: the pieces between the
    separators, never the empty list. *)
Fixpoint Split (s : string) (sep : ascii) : list string :=
  match s with
  | EmptyString => [EmptyString]
  | String c r =>
      if decide (c = sep) then EmptyString :: Split r sep
      else match Split r sep with
           | [] => [String c EmptyString]
           | h :: t => String c h :: t
           end
  end.

(** [strings.ReplaceAll(s, old, new)] for a non-empty [old]; [skip] counts
    the bytes of a matched occurrence still to be dropped. *)
Fixpoint replace_from (skip : nat) (s old new : string) : string :=
  match s with
  | EmptyString => EmptyString
  | String c r =>
      match skip with
      | S k => replace_from k r old new
      | O => if String.prefix old s
             then new +:+ replace_from (String.length old - 1) r old new
             else String c (replace_from 0 r old new)
      end
  end.

Definition ReplaceAll (s old new : string) : string := replace_from 0 s old new.

End strings.

(** ** Go errors *)

(** An [error] value: its message, and whether [os.IsNotExist] holds of it. *)
Record error := mkError { message : string; not_exist : bool }.

(** A returned [error] is [option error], [None] being Go's [nil]. *)
Definition os_IsNotExist (err : option error) : bool :=
  match err with
  | Some e => not_exist e
  | None => false
  end.

(** [fmt.Errorf(prefix + "%v", err)]: a new error, which wraps nothing. *)
Definition Errorf (prefix : string) (err : error) : error :=
  mkError (prefix +:+ message err) false.

(** The result of a Go function returning [(T, error)]. *)
Inductive result (A : Type) : Type :=
| Ok (a : A)
| Err (e : error).
Arguments Ok {A} a.
Arguments Err {A} e.

(** ** The viper configuration store *)

Module viper.

(** A configuration value: a string, a sequence of strings, or a nested
    map. *)
#[warnings="-register-all"] Inductive value : Type :=
| VStr (s : string)
| VList (l : list string)
| VMap (m : gmap string value).

(** The in-memory configuration and [viper.ConfigFileUsed()].  viper keeps
    the values assigned with [Set] in a layer of their own, searched before
    the layer read from the file; the one tree here is the answer of that
    search, exact for a configuration built by assignments alone. *)
Record t := mk { settings : gmap string value; ConfigFileUsed : string }.

(** viper's [searchMap]: follow [path] through nested maps; a value met
    where a nested map is needed means "not found". *)
Fixpoint searchMap (source : gmap string value) (path : list string) : option value :=
  match path with
  | [] => Some (VMap source)
  | k :: rest =>
      match source !! k with
      | Some next =>
          match rest with
          | [] => Some next
          | _ :: _ =>
              match next with
              | VMap m => searchMap m rest
              | _ => None
              end
          end
      | None => None
      end
  end.

(** viper's [deepSearch] followed by the assignment [deepestMap[lastKey] =
    value] of [viper.Set]: missing maps on the way are created, a value in
    the way is replaced by a fresh map. *)
Fixpoint deepSet (m : gmap string value) (path : list string) (v : value)
  : gmap string value :=
  match path with
  | [] => m
  | k :: rest =>
      match rest with
      | [] => <[strings.ToLower k := v]> m
      | _ :: _ =>
          let sub := match m !! k with
                     | Some (VMap m') => m'
                     | _ => ∅
                     end in
          <[k := VMap (deepSet sub rest v)]> m
      end
  end.

Definition keyPath (key : string) : list string :=
  strings.Split (strings.ToLower key) ".".

(** [viper.Get(key)] *)
Definition Get (c : t) (key : string) : option value :=
  searchMap (settings c) (keyPath key).

(** [viper.IsSet(key)] *)
Definition IsSet (c : t) (key : string) : bool :=
  match Get c key with
  | Some _ => true
  | None => false
  end.

(** [viper.Set(key, value)] *)
Definition Set_ (c : t) (key : string) (v : value) : t :=
  mk (deepSet (settings c) (keyPath key) v) (ConfigFileUsed c).

(** [cast.ToString]: a string is itself, anything else fails to convert
    and yields the empty string. *)
Definition ToString (v : value) : string :=
  match v with
  | VStr s => s
  | _ => ""
  end.

(** [viper.GetStringMapString(key)]: the map under [key] with every entry
    converted to a string; the empty map when there is no map there. *)
Definition GetStringMapString (c : t) (key : string) : gmap string string :=
  match Get c key with
  | Some (VMap m) => ToString <$> m
  | _ => ∅
  end.

End viper.

(** The map found under a path, empty when there is none. *)
Definition subMap (m : gmap string viper.value) (path : list string) : gmap string viper.value :=
  match viper.searchMap m path with
  | Some (viper.VMap m') => m'
  | _ => ∅
  end.

(** Indexing a Go [map[string]string]: a missing key reads as [""]. *)
Definition index (m : gmap string string) (k : string) : string :=
  default "" (m !! k).

(** ** The outside world *)

(** [container.Config] and [container.HostConfig], with the fields pkg.go
    fills in. *)
Record Config := mkConfig {
  Image : string;
  Cmd : list string;
  Env : list string;
  Tty : bool;
}.

Record HostConfig := mkHostConfig { Binds : list string }.

(** The calls that leave the process.  [EvContainerInspect] belongs to the
    engine's interface; no function of pkg.go issues it. *)
Inductive event : Type :=
| EvPlainClone (path url : string)
| EvImagePull (image : string)
| EvContainerInspect (name : string)
| EvContainerCreate (config : Config) (hostConfig : HostConfig) (name : string)
| EvContainerStart (id : string)
| EvContainerRemove (id : string) (force : bool)
| EvRun (argv : list string)
| EvWriteConfigAs (file : string) (settings : gmap string viper.value)
| EvSafeWriteConfigAs (file : string) (settings : gmap string viper.value).

(** The collaborators of pkg.go over a world [W]: the Go standard library
    ([os], [os/user], [path/filepath], [os/exec]), go-git, the Docker client
    and viper's file writers.  Calls that act on the world return the new
    world next to their answer. *)
Class Platform (W : Type) := {
  os_UserHomeDir : W → result string;
  (** [user.Current()], projected on its [Username] field *)
  user_Current : W → result string;
  (** the error returned by [os.Stat(path)] *)
  os_Stat : string → W → option error;
  filepath_Join : list string → string;
  (** [git.PlainClone(path, false, &CloneOptions{URL: url})] *)
  git_PlainClone : string → string → W → option error * W;
  (** [client.NewClientWithOpts(client.FromEnv, ...)] *)
  client_NewClientWithOpts : W → option error;
  cli_ImagePull : string → W → option error * W;
  cli_ContainerCreate : Config → HostConfig → string → W → result string * W;
  cli_ContainerStart : string → W → option error * W;
  (** [cli.ContainerRemove(ctx, id, ContainerRemoveOptions{Force: force})] *)
  cli_ContainerRemove : string → bool → W → option error * W;
  (** [exec.Command(argv...).Run()] on the terminal of the process *)
  exec_Run : list string → W → option error * W;
  viper_WriteConfigAs : string → gmap string viper.value → W → option error * W;
  viper_SafeWriteConfigAs : string → gmap string viper.value → W → option error * W;
}.

(** ** The functions of pkg.go and cmd.go *)

Section Program.
Context {W : Type} `{Platform W}.

(** The state of the process: the world and viper's global configuration. *)
Record St := mkSt { world : W; config : viper.t }.

(** What running a function gives: its result, the state it leaves and the
    outgoing calls it made, oldest first. *)
Record Outcome (A : Type) := mkOutcome {
  res : result A;
  final : St;
  log : list event;
}.
Arguments mkOutcome {A}.
Arguments res {A}.
Arguments final {A}.
Arguments log {A}.

Definition M (A : Type) : Type := St → Outcome A.

#[export] Instance M_ret : MRet M := λ A a st, mkOutcome (Ok a) st [].

(** Sequencing, with Go's [if err != nil { return err }] after each call. *)
#[export] Instance M_bind : MBind M := λ A B k m st,
  match m st with
  | mkOutcome (Ok a) st1 l1 =>
      match k a st1 with
      | mkOutcome r st2 l2 => mkOutcome r st2 (l1 ++ l2)
      end
  | mkOutcome (Err e) st1 l1 => mkOutcome (Err e) st1 l1
  end.

Definition fail {A} (e : error) : M A := λ st, mkOutcome (Err e) st [].

(** [if err != nil { return fmt.Errorf(prefix + "%v", err) }] *)
Definition wrap {A} (prefix : string) (m : M A) : M A := λ st,
  match m st with
  | mkOutcome (Ok a) st1 l1 => mkOutcome (Ok a) st1 l1
  | mkOutcome (Err e) st1 l1 => mkOutcome (Err (Errorf prefix e)) st1 l1
  end.

Definition get_world : M W := λ st, mkOutcome (Ok (world st)) st [].
Definition get_config : M viper.t := λ st, mkOutcome (Ok (config st)) st [].
Definition put_config (c : viper.t) : M unit :=
  λ st, mkOutcome (Ok tt) (mkSt (world st) c) [].

(** A call that acts on the world and answers with an [error]. *)
Definition call (ev : event) (f : W → option error * W) : M (option error) := λ st,
  let '(err, w) := f (world st) in
  mkOutcome (Ok err) (mkSt w (config st)) [ev].

(** [if err != nil { return err }] *)
Definition check (err : option error) : M unit :=
  match err with
  | Some e => fail e
  | None => mret tt
  end.

(** getUsername retrieves the current user's username. *)
Definition getUsername (w : W) : string * option error :=
  match user_Current w with
  | Err e => ("", Some e)
  | Ok username =>
      if strings.Contains username "/"
      then (List.last (strings.Split username "/") "", None)
      else (username, None)
  end.

Definition projectKey (username projectDirName repoName : string) : string :=
  "users." +:+ username +:+ ".projects." +:+ projectDirName +:+ ".repos." +:+ repoName.

(** deriveProjectValues: the stored record if the key is set, the derived
    defaults otherwise.  A failing getUsername is only logged. *)
Definition deriveProjectValues (projectDirName repoName : string)
  : M (string * string * string) :=
  w ← get_world;
  let '(username, _) := getUsername w in
  let projectKey := projectKey username projectDirName repoName in
  c ← get_config;
  if viper.IsSet c projectKey then
    let projectConfig := viper.GetStringMapString c projectKey in
    mret (index projectConfig "repo_url",
          index projectConfig "docker_image",
          index projectConfig "container_name")
  else
    let repoURL := "https://github.com/Cdaprod/" +:+ strings.ToLower repoName +:+ ".git" in
    let dockerImage := "cdaprod/" +:+ strings.ToLower repoName +:+ ":latest" in
    let containerName := "nvim-" +:+ strings.ToLower repoName in
    mret (repoURL, dockerImage, containerName).

(** getVolumeBindings *)
Definition getVolumeBindings (homeDir projectPath : string) : list string :=
  [ homeDir +:+ "/.config/nvim:/root/.config/nvim";
    homeDir +:+ "/.vim:/root/.vim";
    homeDir +:+ "/.vimrc:/root/.vimrc";
    projectPath +:+ ":/usr/src/app" ].

(** CloneRepo *)
Definition CloneRepo (repoURL destPath : string) : M unit :=
  err ← call (EvPlainClone destPath repoURL) (git_PlainClone destPath repoURL);
  check err.

(** [cli, err := client.NewClientWithOpts(...)] *)
Definition newClient : M (option error) :=
  w ← get_world; mret (client_NewClientWithOpts w).

(** RunContainer: pull, create, start. *)
Definition RunContainer (imageName containerName : string)
    (binds cmdArgs env : list string) : M string :=
  err ← newClient;
  check err;;
  err ← call (EvImagePull imageName) (cli_ImagePull imageName);
  check err;;
  let containerConfig := mkConfig imageName cmdArgs env true in
  let hostConfig := mkHostConfig binds in
  resp ← (λ st,
    let '(r, w) := cli_ContainerCreate containerConfig hostConfig containerName (world st) in
    mkOutcome r (mkSt w (config st))
              [EvContainerCreate containerConfig hostConfig containerName]);
  err ← call (EvContainerStart resp) (cli_ContainerStart resp);
  check err;;
  mret resp.

(** AttachToContainer: [docker exec -it <id> nvim] on the terminal. *)
Definition AttachToContainer (containerID : string) : M unit :=
  let argv := ["docker"; "exec"; "-it"; containerID; "nvim"] in
  err ← call (EvRun argv) (exec_Run argv);
  wrap "error executing Neovim: " (check err).

(** RemoveContainer: forced removal by ID. *)
Definition RemoveContainer (containerID : string) : M unit :=
  err ← newClient;
  wrap "error creating Docker client: " (check err);;
  err ← call (EvContainerRemove containerID true) (cli_ContainerRemove containerID true);
  check err.

(** StartProject *)
Definition StartProject (projectDirName repoName : string) : M unit :=
  w ← get_world;
  homeDir ← wrap "error getting home directory: "
              (λ st, mkOutcome (os_UserHomeDir w) st []);
  '(repoURL, dockerImage, containerName) ← deriveProjectValues projectDirName repoName;
  let projectPath := filepath_Join [homeDir; "Projects"; projectDirName; repoName] in
  w ← get_world;
  (if os_IsNotExist (os_Stat projectPath w)
   then wrap "error cloning repository: " (CloneRepo repoURL projectPath)
   else mret tt);;
  let binds := getVolumeBindings homeDir projectPath in
  let env := ["HOME=/home/cdaprod"] in
  let cmdArgs := ["nvim"] in
  containerID ← wrap "error running container: "
                  (RunContainer dockerImage containerName binds cmdArgs env);
  wrap "error attaching to container: " (AttachToContainer containerID);;
  wrap "error removing container: " (RemoveContainer containerID);;
  mret tt.

(** [viper.Set(key, value)] on the global configuration. *)
Definition viper_Set (key value : string) : M unit :=
  c ← get_config; put_config (viper.Set_ c key (viper.VStr value)).

(** AddProjectConfig *)
Definition AddProjectConfig
    (projectDirName repoName repoURL dockerImage containerName : string) : M unit :=
  w ← get_world;
  let '(username, err) := getUsername w in
  wrap "error getting username: " (check err);;
  let projectKey := projectKey username projectDirName repoName in
  c ← get_config;
  if viper.IsSet c projectKey then
    fail (mkError ("repository " +:+ repoName +:+ " already exists under project "
                     +:+ projectDirName +:+ " for user " +:+ username) false)
  else
    viper_Set (projectKey +:+ ".repo_url") repoURL;;
    viper_Set (projectKey +:+ ".docker_image") dockerImage;;
    viper_Set (projectKey +:+ ".container_name") containerName;;
    c ← get_config;
    let file := viper.ConfigFileUsed c in
    err ← call (EvWriteConfigAs file (viper.settings c))
               (viper_WriteConfigAs file (viper.settings c));
    match err with
    | Some e =>
        if os_IsNotExist err then
          err ← call (EvSafeWriteConfigAs file (viper.settings c))
                     (viper_SafeWriteConfigAs file (viper.settings c));
          wrap "error creating config file: " (check err)
        else fail (Errorf "error writing config file: " e)
    | None => mret tt
    end.

(** The [Run] function of addProjectCmd, on its three arguments;
    [logrus.Fatalf] ends the process with the error. *)
Definition addProjectCmd (projectDirName repoName repoURL : string) : M unit :=
  let dockerImage := "cdaprod/" +:+ strings.ToLower repoName +:+ ":latest" in
  let containerName := "nvim-" +:+ strings.ToLower repoName in
  wrap "Error adding project: "
    (AddProjectConfig projectDirName repoName repoURL dockerImage containerName).

(** The [Run] function of startCmd, on its two arguments. *)
Definition startCmd (projectDirName repoName : string) : M unit :=
  wrap "Error starting project: " (StartProject projectDirName repoName).

End Program.

Arguments mkOutcome {W A}.
Arguments res {W A}.
Arguments final {W A}.
Arguments log {W A}.
Arguments St W : clear implicits.
Arguments mkSt {W}.
Arguments world {W}.
Arguments config {W}.

(** ** A concrete platform *)

(** A container held by the simulated engine. *)
Record Container := mkContainer {
  ID : string;
  Name : string;
  Conf : Config;
  HostConf : HostConfig;
  Running : bool;
}.

(** The simulated world.  Its engine behaves as Docker does at the interface
    pkg.go uses: names are unique among the containers it holds, creation
    under a name in use is refused, identifiers are fresh. *)
Record Sim := mkSim {
  sim_home : result string;            (* answer of os.UserHomeDir *)
  sim_user : result string;            (* answer of user.Current *)
  sim_files : list string;             (* the paths that exist *)
  sim_remotes : list string;           (* the URLs that can be cloned *)
  sim_docker : option error;           (* error of building the client *)
  sim_registry : list string;          (* the images that can be pulled *)
  sim_containers : list Container;
  sim_next : nat;                      (* counter of container IDs *)
  sim_nvim : option error;             (* how the interactive process ends *)
  sim_saved : option (gmap string viper.value);  (* the configuration file *)
}.

Module sim.

Definition set_files (f : list string → list string) (s : Sim) : Sim :=
  mkSim (sim_home s) (sim_user s) (f (sim_files s)) (sim_remotes s) (sim_docker s)
        (sim_registry s) (sim_containers s) (sim_next s) (sim_nvim s) (sim_saved s).

Definition set_containers (cs : list Container) (next : nat) (s : Sim) : Sim :=
  mkSim (sim_home s) (sim_user s) (sim_files s) (sim_remotes s) (sim_docker s)
        (sim_registry s) cs next (sim_nvim s) (sim_saved s).

Definition set_saved (file : string) (m : gmap string viper.value) (s : Sim) : Sim :=
  mkSim (sim_home s) (sim_user s) (file :: sim_files s) (sim_remotes s) (sim_docker s)
        (sim_registry s) (sim_containers s) (sim_next s) (sim_nvim s) (Some m).

Definition has_name (name : string) (c : Container) : bool := bool_decide (Name c = name).
Definition has_id (id : string) (c : Container) : bool := bool_decide (ID c = id).

Definition no_such_file (path : string) : error :=
  mkError ("stat " +:+ path +:+ ": no such file or directory") true.

Definition Stat (path : string) (s : Sim) : option error :=
  if bool_decide (path ∈ sim_files s) then None else Some (no_such_file path).

(** Joins the non-empty elements with '/'; the elements used here are
    clean already, so [filepath.Clean] has nothing left to do. *)
Fixpoint Join (elem : list string) : string :=
  match elem with
  | [] => ""
  | e :: rest =>
      if bool_decide (e = "") then Join rest
      else match Join rest with
           | "" => e
           | r => e +:+ "/" +:+ r
           end
  end.

Definition PlainClone (path url : string) (s : Sim) : option error * Sim :=
  if bool_decide (url ∈ sim_remotes s)
  then (None, set_files (cons path) s)
  else (Some (mkError "repository not found" false), s).

Definition ImagePull (image : string) (s : Sim) : option error * Sim :=
  if bool_decide (image ∈ sim_registry s) then (None, s)
  else (Some (mkError ("pull access denied for " +:+ image) false), s).

Definition ContainerCreate (cfg : Config) (host : HostConfig) (name : string) (s : Sim)
  : result string * Sim :=
  if existsb (has_name name) (sim_containers s)
  then (Err (mkError ("Conflict. The container name " +:+ name +:+ " is already in use") false), s)
  else let id := "c" +:+ pretty (sim_next s) in
       (Ok id, set_containers (sim_containers s ++ [mkContainer id name cfg host false])
                              (S (sim_next s)) s).

Definition start (id : string) (c : Container) : Container :=
  if has_id id c then mkContainer (ID c) (Name c) (Conf c) (HostConf c) true else c.

Definition no_such_container (id : string) : error :=
  mkError ("No such container: " +:+ id) false.

Definition ContainerStart (id : string) (s : Sim) : option error * Sim :=
  if existsb (has_id id) (sim_containers s)
  then (None, set_containers (start id <$> sim_containers s) (sim_next s) s)
  else (Some (no_such_container id), s).

Definition ContainerRemove (id : string) (force : bool) (s : Sim) : option error * Sim :=
  match List.find (has_id id) (sim_containers s) with
  | None => (Some (no_such_container id), s)
  | Some c =>
      if Running c && negb force
      then (Some (mkError "cannot remove a running container" false), s)
      else (None, set_containers (List.filter (λ c, negb (has_id id c)) (sim_containers s))
                                 (sim_next s) s)
  end.

Definition Run (argv : list string) (s : Sim) : option error * Sim := (sim_nvim s, s).

Definition WriteConfigAs (file : string) (m : gmap string viper.value) (s : Sim)
  : option error * Sim :=
  if bool_decide (file = "")
  then (Some (mkError "open : no such file or directory" true), s)
  else (None, set_saved file m s).

Definition SafeWriteConfigAs (file : string) (m : gmap string viper.value) (s : Sim)
  : option error * Sim :=
  if bool_decide (file ∈ sim_files s)
  then (Some (mkError ("Config File " +:+ file +:+ " Already Exists") false), s)
  else WriteConfigAs file m s.

End sim.

#[export] Instance Sim_platform : Platform Sim := {|
  os_UserHomeDir := sim_home;
  user_Current := sim_user;
  os_Stat := sim.Stat;
  filepath_Join := sim.Join;
  git_PlainClone := sim.PlainClone;
  client_NewClientWithOpts := sim_docker;
  cli_ImagePull := sim.ImagePull;
  cli_ContainerCreate := sim.ContainerCreate;
  cli_ContainerStart := sim.ContainerStart;
  cli_ContainerRemove := sim.ContainerRemove;
  exec_Run := sim.Run;
  viper_WriteConfigAs := sim.WriteConfigAs;
  viper_SafeWriteConfigAs := sim.SafeWriteConfigAs;
|}.

(** A developer machine: user [u], the project [demo/api] not yet cloned,
    its image and repository available, no container, an empty
    configuration. *)
Definition machine : Sim := {|
  sim_home := Ok "/home/u";
  sim_user := Ok "u";
  sim_files := ["/home/u"; "/home/u/.dev-env-manager.yaml"];
  sim_remotes := ["https://github.com/Cdaprod/api.git"; "https://example.com/api.git"];
  sim_docker := None;
  sim_registry := ["cdaprod/api:latest"];
  sim_containers := [];
  sim_next := 0;
  sim_nvim := None;
  sim_saved := None;
|}.

Definition no_config : viper.t := viper.mk ∅ "/home/u/.dev-env-manager.yaml".

Definition boot : St Sim := mkSt machine no_config.

(** ** The Binding Composer in the words of the specification *)

(** Default bindings, then the project-specific bindings in input order with
    the home-directory placeholder replaced by the home path, then the
    source path bound to the working directory. *)
Definition composeBindings_spec (placeholder homeDir projectPath : string)
    (projectBindings : list string) : list string :=
  [ homeDir +:+ "/.config/nvim:/root/.config/nvim";
    homeDir +:+ "/.vim:/root/.vim";
    homeDir +:+ "/.vimrc:/root/.vimrc" ]
  ++ ((λ b, strings.ReplaceAll b placeholder homeDir) <$> projectBindings)
  ++ [ projectPath +:+ ":/usr/src/app" ].

(** ** Concrete states *)

(** The interactive process ends with a non-zero exit status. *)
Definition nvim_fails : St Sim :=
  mkSt (mkSim (sim_home machine) (sim_user machine) (sim_files machine)
              (sim_remotes machine) (sim_docker machine) (sim_registry machine)
              (sim_containers machine) (sim_next machine)
              (Some (mkError "exit status 1" false)) (sim_saved machine))
       no_config.

(** The project is cloned already. *)
Definition cloned : St Sim :=
  mkSt (sim.set_files (cons "/home/u/Projects/demo/api") machine) no_config.

(** The engine holds the running container [nvim-api], left by a call of
    RunContainer. *)
Definition busy : St Sim :=
  final (RunContainer "cdaprod/api:latest" "nvim-api"
           [ "/home/u/.config/nvim:/root/.config/nvim";
             "/home/u/.vim:/root/.vim";
             "/home/u/.vimrc:/root/.vimrc";
             "/home/u/Projects/demo/api:/usr/src/app" ]
           ["nvim"] ["HOME=/home/cdaprod"] boot).

Definition api_key : string := "users.u.projects.demo.repos.api".

(** A record for [demo/api] whose fields differ from the derived defaults. *)
Definition custom_config : viper.t :=
  viper.Set_
    (viper.Set_
       (viper.Set_ no_config (api_key +:+ ".repo_url") (viper.VStr "https://example.com/api.git"))
       (api_key +:+ ".docker_image") (viper.VStr "example/api:v2"))
    (api_key +:+ ".container_name") (viper.VStr "api-dev").

(** A record for [demo/api] that has a [repo_url] and nothing else. *)
Definition partial_config : viper.t :=
  viper.Set_ no_config (api_key +:+ ".repo_url") (viper.VStr "https://example.com/api.git").

(** The record the add command stores for [demo/api], with one
    project-specific binding added to it. *)
Definition bindings_config : viper.t :=
  viper.Set_
    (config (final (addProjectCmd "demo" "api" "https://github.com/Cdaprod/api.git" boot)))
    (api_key +:+ ".volume_bindings") (viper.VList ["$HOME/data:/data"]).

Definition api_config : Config :=
  mkConfig "cdaprod/api:latest" ["nvim"] ["HOME=/home/cdaprod"] true.

Definition api_binds : list string :=
  [ "/home/u/.config/nvim:/root/.config/nvim";
    "/home/u/.vim:/root/.vim";
    "/home/u/.vimrc:/root/.vimrc";
    "/home/u/Projects/demo/api:/usr/src/app" ].

(** Two key paths that part at some position: neither leads into the
    other. *)
Definition diverge (p q : list string) : Prop :=
  ∃ l a b p' q', p = l ++ a :: p' ∧ q = l ++ b :: q' ∧ a ≠ b.

(** The user is reported by the system as a path. *)
Definition path_user : St Sim :=
  mkSt (mkSim (sim_home machine) (Ok "/home/cdaprod") (sim_files machine)
              (sim_remotes machine) (sim_docker machine) (sim_registry machine)
              (sim_containers machine) (sim_next machine) (sim_nvim machine)
              (sim_saved machine))
       no_config.

(** The repository of the project cannot be cloned. *)
Definition offline : St Sim :=
  mkSt (mkSim (sim_home machine) (sim_user machine) (sim_files machine)
              [] (sim_docker machine) (sim_registry machine)
              (sim_containers machine) (sim_next machine) (sim_nvim machine)
              (sim_saved machine))
       no_config.

(** The home directory and the user cannot be determined. *)
Definition homeless : St Sim :=
  mkSt (mkSim (Err (mkError "$HOME is not defined" false))
              (Err (mkError "user: Current not implemented" false))
              (sim_files machine) (sim_remotes machine) (sim_docker machine)
              (sim_registry machine) (sim_containers machine) (sim_next machine)
              (sim_nvim machine) (sim_saved machine))
       no_config.


(** The configuration after the three assignments of AddProjectConfig. *)
Definition with_record (c : viper.t) (key repoURL dockerImage containerName : string)
  : viper.t :=
  viper.Set_
    (viper.Set_ (viper.Set_ c (key +:+ ".repo_url") (viper.VStr repoURL))
       (key +:+ ".docker_image") (viper.VStr dockerImage))
    (key +:+ ".container_name") (viper.VStr containerName).

(** The state after [add demo api https://example.com/api.git]. *)
Definition added : St Sim :=
  final (addProjectCmd "demo" "api" "https://example.com/api.git" boot).

(** The simulated platform, except that [os.Stat] is refused for every
    path. *)
Definition denied_platform : Platform Sim := {|
  os_UserHomeDir := sim_home;
  user_Current := sim_user;
  os_Stat := λ path s, Some (mkError ("stat " +:+ path +:+ ": permission denied") false);
  filepath_Join := sim.Join;
  git_PlainClone := sim.PlainClone;
  client_NewClientWithOpts := sim_docker;
  cli_ImagePull := sim.ImagePull;
  cli_ContainerCreate := sim.ContainerCreate;
  cli_ContainerStart := sim.ContainerStart;
  cli_ContainerRemove := sim.ContainerRemove;
  exec_Run := sim.Run;
  viper_WriteConfigAs := sim.WriteConfigAs;
  viper_SafeWriteConfigAs := sim.SafeWriteConfigAs;
|}.

(** Whether every byte of a string is an ASCII character.  On such
    strings [strings.ToLower] above is Go's [strings.ToLower]; on others Go
    also lower-cases the letters outside ASCII. *)
Fixpoint is_ascii (s : string) : bool :=
  match s with
  | EmptyString => true
  | String c r => (Ascii.N_of_ascii c <? 128)%N && is_ascii r
  end.

Section Session.
Context {W : Type} `{Platform W}.

(** The steps of StartProject after the source is materialized (pkg.go
    43-70): the bindings, the environment, the command, then RunContainer,
    AttachToContainer and RemoveContainer. *)
Definition session (homeDir projectPath dockerImage containerName : string) : M unit :=
  let binds := getVolumeBindings homeDir projectPath in
  let env := ["HOME=/home/cdaprod"] in
  let cmdArgs := ["nvim"] in
  containerID ← wrap "error running container: "
                  (RunContainer dockerImage containerName binds cmdArgs env);
  wrap "error attaching to container: " (AttachToContainer containerID);;
  wrap "error removing container: " (RemoveContainer containerID);;
  mret tt.

End Session.



(** ** Proof steps for the monad *)

(** Unfolds the monad; [branch] then takes the next answer of the world
    apart, one case per way the call can end. *)
Ltac run :=
  unfold StartProject, startCmd, addProjectCmd, AddProjectConfig, viper_Set,
    deriveProjectValues, RunContainer, AttachToContainer, RemoveContainer,
    CloneRepo, newClient, wrap, call, check, fail, get_world, get_config,
    put_config, mbind, M_bind, mret, M_ret;
  cbn [res final log world config app].

Ltac branch :=
  match goal with
  | |- context [match ?x with _ => _ end] =>
      lazymatch x with
      | context [match _ with _ => _ end] => fail
      | _ => destruct x eqn:?; cbn [res final log world config app]
      end
  end.

(** Takes a membership in an explicit log apart. *)
Ltac mem H :=
  simpl in H;
  repeat first
    [ apply elem_of_nil in H; destruct H
    | apply elem_of_cons in H as [H|H]; [try discriminate; try (injection H as ?; subst) |] ].

(** * Properties *)

Example Split_ex : strings.Split "users.u.repos.a" "." = ["users"; "u"; "repos"; "a"].
Proof. reflexivity. Qed.

Example ReplaceAll_ex :
  strings.ReplaceAll "$HOME/x:$HOME" "$HOME" "/home/u" = "/home/u/x:/home/u".
Proof. reflexivity. Qed.

Example ToLower_ex : strings.ToLower "My-Repo.X" = "my-repo.x".
Proof. reflexivity. Qed.

(** ** Keys and paths *)

Lemma ToLower_app (a b : string) :
  strings.ToLower (a +:+ b) = strings.ToLower a +:+ strings.ToLower b.
Proof. induction a as [|c a IH]; simpl; [done | by rewrite IH]. Qed.

Lemma Split_not_nil (s : string) (sep : ascii) : strings.Split s sep ≠ [].
Proof.
  destruct s as [|c r]; simpl; [done |].
  case_decide; [done |]. by destruct (strings.Split r sep).
Qed.

Lemma Split_app_sep (a b : string) (sep : ascii) :
  strings.Split (a +:+ String sep b) sep = strings.Split a sep ++ strings.Split b sep.
Proof.
  induction a as [|c a IH]; simpl.
  - by rewrite decide_True.
  - case_decide; [by rewrite IH |].
    rewrite IH. pose proof (Split_not_nil a sep).
    by destruct (strings.Split a sep).
Qed.

(** The key of a field of a record is the path of the record followed by
    the field, for a field written in lower case without a dot. *)
Lemma keyPath_field (key field : string) :
  strings.ToLower field = field →
  strings.Split field "." = [field] →
  viper.keyPath (key +:+ "." +:+ field) = viper.keyPath key ++ [field].
Proof.
  intros Hlow Hsplit. unfold viper.keyPath.
  change ("." +:+ field) with (String "." field).
  rewrite ToLower_app. simpl. change (strings.lower_byte ".") with "."%char.
  by rewrite Split_app_sep, Hlow, Hsplit.
Qed.

(** ** The configuration tree *)

Lemma subMap_empty (path : list string) : subMap ∅ path = ∅.
Proof. by destruct path. Qed.

Lemma searchMap_nested (m : gmap string viper.value) (k0 k1 : string) (rest : list string) :
  viper.searchMap m (k0 :: k1 :: rest)
  = match m !! k0 with
    | Some (viper.VMap m') => viper.searchMap m' (k1 :: rest)
    | _ => None
    end.
Proof. reflexivity. Qed.

Lemma deepSet_nested (m : gmap string viper.value) (k0 k1 : string) (rest : list string)
    (v : viper.value) :
  viper.deepSet m (k0 :: k1 :: rest) v
  = <[k0 := viper.VMap (viper.deepSet (subMap m [k0]) (k1 :: rest) v)]> m.
Proof.
  unfold subMap. cbn [viper.searchMap viper.deepSet].
  by destruct (m !! k0) as [[]|].
Qed.

(** Reading the parent after a deep assignment: the map that was there,
    with the one field assigned. *)
Lemma searchMap_deepSet (m : gmap string viper.value) (path : list string)
    (k : string) (v : viper.value) :
  viper.searchMap (viper.deepSet m (path ++ [k]) v) path
  = Some (viper.VMap (<[strings.ToLower k := v]> (subMap m path))).
Proof.
  revert m. induction path as [|k0 path IH]; intros m; [done |].
  destruct path as [|k1 path].
  - change (([k0] ++ [k])) with [k0; k]. rewrite deepSet_nested.
    cbn [viper.searchMap viper.deepSet]. by rewrite lookup_insert_eq.
  - change ((k0 :: k1 :: path) ++ [k]) with (k0 :: k1 :: (path ++ [k])).
    rewrite deepSet_nested, searchMap_nested, lookup_insert_eq.
    change (k1 :: path ++ [k]) with ((k1 :: path) ++ [k]). rewrite IH.
    do 3 f_equal. unfold subMap. rewrite searchMap_nested.
    cbn [viper.searchMap]. by destruct (m !! k0) as [[]|].
Qed.


(** [viper.Set] of a field, read back through the record's key. *)
Lemma Get_Set_field (c : viper.t) (key field : string) (v : viper.value) :
  strings.ToLower field = field →
  strings.Split field "." = [field] →
  viper.Get (viper.Set_ c (key +:+ "." +:+ field) v) key
  = Some (viper.VMap (<[field := v]> (subMap (viper.settings c) (viper.keyPath key)))).
Proof.
  intros Hlow Hsplit. unfold viper.Get, viper.Set_. simpl.
  by rewrite keyPath_field, searchMap_deepSet, Hlow.
Qed.




(** Once a field of a record is assigned, the record's key is set. *)
Lemma IsSet_Set_field (c : viper.t) (key field : string) (v : viper.value) :
  strings.ToLower field = field →
  strings.Split field "." = [field] →
  viper.IsSet (viper.Set_ c (key +:+ "." +:+ field) v) key = true.
Proof. intros. unfold viper.IsSet. by rewrite Get_Set_field. Qed.

(** ** The functions, over any platform *)

Section Properties.
Context {W : Type} `{Platform W}.
Implicit Types (st : St W).

(** *** RunContainer *)

Lemma RunContainer_no_client st image name binds cmd env e :
  client_NewClientWithOpts (world st) = Some e →
  RunContainer image name binds cmd env st = mkOutcome (Err e) st [].
Proof. intros E. run. by rewrite E. Qed.

(** C2, as the code has it: RunContainer never inspects for a container
    and never removes one, whatever the engine holds.  Its calls to the
    engine are a pull of the image, then a create under [containerName],
    then a start of the ID that the create returned, in this order,
    stopping at the first one that fails, whose error it returns as it is;
    when all succeed it returns the created ID.  A name already in use is
    left to the engine: when it refuses the create, RunContainer returns
    that error and starts nothing. *)
Theorem RunContainer_never_removes st image name binds cmd env :
  let o := RunContainer image name binds cmd env st in
  let cfg := mkConfig image cmd env true in
  let host := mkHostConfig binds in
  let pull := EvImagePull image in
  let create := EvContainerCreate cfg host name in
  (log o = [] ∨ log o = [pull] ∨ log o = [pull; create]
   ∨ ∃ id, log o = [pull; create; EvContainerStart id])
  ∧ (∀ n, EvContainerInspect n ∉ log o)
  ∧ (∀ id force, EvContainerRemove id force ∉ log o)
  ∧ (∀ e, client_NewClientWithOpts (world st) = Some e →
       o = mkOutcome (Err e) st [])
  ∧ (∀ e w1,
       client_NewClientWithOpts (world st) = None →
       cli_ImagePull image (world st) = (Some e, w1) →
       o = mkOutcome (Err e) (mkSt w1 (config st)) [pull])
  ∧ (∀ w1 e w2,
       client_NewClientWithOpts (world st) = None →
       cli_ImagePull image (world st) = (None, w1) →
       cli_ContainerCreate cfg host name w1 = (Err e, w2) →
       o = mkOutcome (Err e) (mkSt w2 (config st)) [pull; create])
  ∧ (∀ w1 id w2 err w3,
       client_NewClientWithOpts (world st) = None →
       cli_ImagePull image (world st) = (None, w1) →
       cli_ContainerCreate cfg host name w1 = (Ok id, w2) →
       cli_ContainerStart id w2 = (err, w3) →
       o = mkOutcome (match err with Some e => Err e | None => Ok id end)
             (mkSt w3 (config st)) [pull; create; EvContainerStart id]).
Proof.
  intros o cfg host pull create. subst o cfg host pull create. split_and!.
  - run. repeat branch; eauto 10.
  - run. repeat branch; intros n Hin; mem Hin.
  - run. repeat branch; intros id force Hin; mem Hin.
  - intros e E1. run. by rewrite E1.
  - intros e w1 E1 E2. run. rewrite E1. cbn [res final log world config app].
    by rewrite E2.
  - intros w1 e w2 E1 E2 E3. run. rewrite E1. cbn [res final log world config app].
    rewrite E2. cbn [res final log world config app]. by rewrite E3.
  - intros w1 id w2 err w3 E1 E2 E3 E4. run. rewrite E1.
    cbn [res final log world config app]. rewrite E2.
    cbn [res final log world config app]. rewrite E3.
    cbn [res final log world config app]. rewrite E4. by destruct err.
Qed.

(** C9: the image pull is the first call RunContainer makes to the engine,
    and it is made as soon as the client could be built; when the pull
    fails, RunContainer returns that error and has neither created nor
    started a container. *)
Theorem RunContainer_pull_first st image name binds cmd env :
  let o := RunContainer image name binds cmd env st in
  (∀ ev, head (log o) = Some ev → ev = EvImagePull image)
  ∧ (client_NewClientWithOpts (world st) = None →
     head (log o) = Some (EvImagePull image))
  ∧ (∀ e w', client_NewClientWithOpts (world st) = None →
       cli_ImagePull image (world st) = (Some e, w') →
       res o = Err e ∧ log o = [EvImagePull image] ∧ world (final o) = w').
Proof.
  intros o. subst o. split; [| split].
  - intros ev. run. repeat branch; simpl; congruence.
  - intros E. run. rewrite E. simpl. repeat branch; done.
  - intros e w' E1 E2. run. rewrite E1. simpl. by rewrite E2.
Qed.

(** *** StartProject *)

(** C10: whatever the project, its record and the configuration, the
    container that StartProject has created gets the environment
    [HOME=/home/cdaprod] and nothing else. *)
Theorem StartProject_env st projectDirName repoName cfg host name :
  EvContainerCreate cfg host name ∈ log (StartProject projectDirName repoName st) →
  Env cfg = ["HOME=/home/cdaprod"].
Proof.
  run. repeat branch; simpl; intros Hin; mem Hin; done.
Qed.

Lemma deriveProjectValues_outcome st d r :
  deriveProjectValues d r st = mkOutcome (res (deriveProjectValues d r st)) st [].
Proof. run. repeat branch; done. Qed.

Lemma deriveProjectValues_ok st d r :
  ∃ url image name, res (deriveProjectValues d r st) = Ok (url, image, name).
Proof. run. repeat branch; eauto. Qed.

(** With the project directory in place, StartProject is the session run
    from the state it was called in. *)
Lemma StartProject_existing st d r homeDir url image name :
  os_UserHomeDir (world st) = Ok homeDir →
  res (deriveProjectValues d r st) = Ok (url, image, name) →
  let projectPath := filepath_Join [homeDir; "Projects"; d; r] in
  os_IsNotExist (os_Stat projectPath (world st)) = false →
  StartProject d r st = session homeDir projectPath image name st.
Proof.
  intros Ehome Ed projectPath Estat. subst projectPath.
  unfold StartProject, session, mbind, M_bind, get_world, wrap, mret, M_ret.
  cbn [res final log world config app]. rewrite Ehome.
  rewrite deriveProjectValues_outcome, Ed. cbn [res final log world config app].
  rewrite Estat. repeat branch; reflexivity.
Qed.

(** After a clone that succeeded, StartProject is the session run from the
    world the clone left, its log after the clone's. *)
Lemma StartProject_cloned st d r homeDir url image name w1 :
  os_UserHomeDir (world st) = Ok homeDir →
  res (deriveProjectValues d r st) = Ok (url, image, name) →
  let projectPath := filepath_Join [homeDir; "Projects"; d; r] in
  os_IsNotExist (os_Stat projectPath (world st)) = true →
  git_PlainClone projectPath url (world st) = (None, w1) →
  let s := session homeDir projectPath image name (mkSt w1 (config st)) in
  StartProject d r st = mkOutcome (res s) (final s) (EvPlainClone projectPath url :: log s).
Proof.
  intros Ehome Ed projectPath Estat Eclone s. subst s projectPath.
  unfold StartProject, session, CloneRepo, call, check, mbind, M_bind, get_world, wrap,
    mret, M_ret.
  cbn [res final log world config app]. rewrite Ehome.
  rewrite deriveProjectValues_outcome, Ed. cbn [res final log world config app].
  rewrite Estat, Eclone. cbn [res final log world config app].
  repeat branch; reflexivity.
Qed.

(** A failing RunContainer ends the session with its error wrapped, in the
    state and with the calls of RunContainer. *)
Lemma session_run_error st homeDir projectPath image name e :
  let rc := RunContainer image name (getVolumeBindings homeDir projectPath) ["nvim"]
              ["HOME=/home/cdaprod"] st in
  res rc = Err e →
  session homeDir projectPath image name st
  = mkOutcome (Err (Errorf "error running container: " e)) (final rc) (log rc).
Proof.
  intros rc. subst rc. unfold session, mbind, M_bind, wrap.
  destruct (RunContainer _ _ _ _ _ st) as [[id|e'] st2 l2]; cbn [res final log]; [done |].
  by intros [= ->].
Qed.

(** C8: when the destination path exists, the materialization is a step
    that does nothing and succeeds: StartProject makes no clone call, does
    not end with the error of that step, and goes on from the state it was
    called in with the rest of the session (RunContainer, AttachToContainer,
    RemoveContainer on the resolved image and name), whose outcome is its
    own. *)
Theorem StartProject_existing_path_no_clone st projectDirName repoName homeDir :
  os_UserHomeDir (world st) = Ok homeDir →
  let projectPath := filepath_Join [homeDir; "Projects"; projectDirName; repoName] in
  os_Stat projectPath (world st) = None →
  let o := StartProject projectDirName repoName st in
  (∀ path url, EvPlainClone path url ∉ log o)
  ∧ (∀ e, res o ≠ Err (Errorf "error cloning repository: " e))
  ∧ (∃ url image name,
       res (deriveProjectValues projectDirName repoName st) = Ok (url, image, name)
       ∧ o = session homeDir projectPath image name st).
Proof.
  intros Ehome projectPath Estat o. subst o projectPath. split_and!.
  - run. rewrite Ehome.
    repeat first [rewrite Estat; cbn [os_IsNotExist] | branch];
      intros path url Hin; mem Hin.
  - run. rewrite Ehome.
    repeat first [rewrite Estat; cbn [os_IsNotExist] | branch]; intros e' [=].
  - destruct (deriveProjectValues_ok st projectDirName repoName)
      as (url & image & name & Ed).
    exists url, image, name. split; [done |].
    apply (StartProject_existing st projectDirName repoName homeDir url image name);
      [done | done |]. by rewrite Estat.
Qed.

(** Where StartProject reports the failure of the attachment, it has
    made no call to remove a container. *)
Lemma StartProject_attach_error_no_remove st projectDirName repoName e :
  res (StartProject projectDirName repoName st)
    = Err (Errorf "error attaching to container: " e) →
  ∀ id force, EvContainerRemove id force ∉ log (StartProject projectDirName repoName st).
Proof.
  run. repeat branch; intros [=] id force Hin; mem Hin.
Qed.

(** C3, as the code has it: the bindings StartProject passes to the create
    call are the three default bindings in fixed order followed by the
    project source path bound to [/usr/src/app], which is the last entry;
    no binding of the project's record is read and no placeholder is
    substituted. *)
Theorem StartProject_binds st projectDirName repoName homeDir cfg host name :
  os_UserHomeDir (world st) = Ok homeDir →
  EvContainerCreate cfg host name ∈ log (StartProject projectDirName repoName st) →
  let projectPath := filepath_Join [homeDir; "Projects"; projectDirName; repoName] in
  Binds host = getVolumeBindings homeDir projectPath
  ∧ Binds host = [ homeDir +:+ "/.config/nvim:/root/.config/nvim";
                   homeDir +:+ "/.vim:/root/.vim";
                   homeDir +:+ "/.vimrc:/root/.vimrc";
                   projectPath +:+ ":/usr/src/app" ]
  ∧ last (Binds host) = Some (projectPath +:+ ":/usr/src/app").
Proof.
  intros Ehome. run. rewrite Ehome.
  repeat branch; intros Hin; mem Hin; done.
Qed.

(** *** deriveProjectValues *)


(** C6, as the code has it: reading a record never fails.
    deriveProjectValues always returns a triple; from a record it returns
    each field converted to a string, and the empty string for a field
    that is missing. *)
Theorem deriveProjectValues_no_error st projectDirName repoName :
  let o := deriveProjectValues projectDirName repoName st in
  (∃ v, res o = Ok v)
  ∧ (∀ username err r,
       getUsername (world st) = (username, err) →
       viper.Get (config st) (projectKey username projectDirName repoName)
         = Some (viper.VMap r) →
       res o = Ok (index (viper.ToString <$> r) "repo_url",
                   index (viper.ToString <$> r) "docker_image",
                   index (viper.ToString <$> r) "container_name")
       ∧ ∀ field, r !! field = None → index (viper.ToString <$> r) field = "").
Proof.
  intros o. subst o. split.
  - run. repeat branch; eauto.
  - intros username err r E Hget. run. rewrite E.
    unfold viper.IsSet, viper.GetStringMapString. rewrite Hget. split; [done |].
    intros field Hnone. unfold index. by rewrite lookup_fmap, Hnone.
Qed.


(** *** AddProjectConfig *)

(** C5: when the key of the project is already set, AddProjectConfig
    returns the "already exists" error, leaves the configuration and the
    world as they were and writes nothing. *)
Theorem AddProjectConfig_duplicate st projectDirName repoName repoURL dockerImage
    containerName username :
  getUsername (world st) = (username, None) →
  viper.IsSet (config st) (projectKey username projectDirName repoName) = true →
  let o := AddProjectConfig projectDirName repoName repoURL dockerImage containerName st in
  res o = Err (mkError ("repository " +:+ repoName +:+ " already exists under project "
                          +:+ projectDirName +:+ " for user " +:+ username) false)
  ∧ final o = st ∧ log o = [].
Proof.
  intros E Hset o. subst o. run. rewrite E.
  cbn [res final log world config app]. by rewrite Hset.
Qed.

(** After AddProjectConfig has passed its duplicate check, the key is
    set, whether or not the file could be written. *)
Lemma AddProjectConfig_sets_key st projectDirName repoName repoURL dockerImage
    containerName username :
  getUsername (world st) = (username, None) →
  viper.IsSet (config st) (projectKey username projectDirName repoName) = false →
  let o := AddProjectConfig projectDirName repoName repoURL dockerImage containerName st in
  viper.IsSet (config (final o)) (projectKey username projectDirName repoName) = true.
Proof.
  intros E Hunset o. subst o. run. rewrite E.
  cbn [res final log world config app]. rewrite Hunset.
  repeat branch;
    change (projectKey username projectDirName repoName +:+ ".container_name")
      with (projectKey username projectDirName repoName +:+ "." +:+ "container_name");
    by rewrite IsSet_Set_field.
Qed.

End Properties.

(** ** The functions, run on the simulated platform *)

Example StartProject_session :
  let o := StartProject "demo" "api" boot in
  res o = Ok tt
  ∧ log o = [ EvPlainClone "/home/u/Projects/demo/api" "https://github.com/Cdaprod/api.git";
              EvImagePull "cdaprod/api:latest";
              EvContainerCreate api_config (mkHostConfig api_binds) "nvim-api";
              EvContainerStart "c0";
              EvRun ["docker"; "exec"; "-it"; "c0"; "nvim"];
              EvContainerRemove "c0" true ]
  ∧ sim_containers (world (final o)) = [].
Proof. split_and!; vm_compute; reflexivity. Qed.

(** C1, on the code: the interactive process ends with exit status 1 after
    the container [c0] was created and started.  StartProject returns the
    attachment error at once; it makes no call to remove [c0], which is left
    running in the engine. *)
Theorem StartProject_attach_error_leaks :
  let o := StartProject "demo" "api" nvim_fails in
  res o = Err (mkError
            "error attaching to container: error executing Neovim: exit status 1" false)
  ∧ log o = [ EvPlainClone "/home/u/Projects/demo/api" "https://github.com/Cdaprod/api.git";
              EvImagePull "cdaprod/api:latest";
              EvContainerCreate api_config (mkHostConfig api_binds) "nvim-api";
              EvContainerStart "c0";
              EvRun ["docker"; "exec"; "-it"; "c0"; "nvim"] ]
  ∧ (∀ id force, EvContainerRemove id force ∉ log o)
  ∧ sim_containers (world (final o))
    = [mkContainer "c0" "nvim-api" api_config (mkHostConfig api_binds) true].
Proof.
  intros o.
  assert (Hlog : log o =
            [ EvPlainClone "/home/u/Projects/demo/api" "https://github.com/Cdaprod/api.git";
              EvImagePull "cdaprod/api:latest";
              EvContainerCreate api_config (mkHostConfig api_binds) "nvim-api";
              EvContainerStart "c0";
              EvRun ["docker"; "exec"; "-it"; "c0"; "nvim"] ])
    by (vm_compute; reflexivity).
  split_and!; [vm_compute; reflexivity | exact Hlog | | vm_compute; reflexivity].
  intros id force Hin. rewrite Hlog in Hin. mem Hin.
Qed.

(** C2 fails on the code: a container named [nvim-api] is running, left by
    a first call.  The second call with the same inputs pulls and asks for
    the creation, with no inspect and no remove before it; the engine
    refuses the name, the call returns that error, and the container under
    the name is still the one of the first call. *)
Lemma RunContainer_second_call_counterexample :
  let first := RunContainer "cdaprod/api:latest" "nvim-api" api_binds ["nvim"]
                 ["HOME=/home/cdaprod"] boot in
  let second := RunContainer "cdaprod/api:latest" "nvim-api" api_binds ["nvim"]
                  ["HOME=/home/cdaprod"] (final first) in
  res first = Ok "c0"
  ∧ sim_containers (world (final first))
    = [mkContainer "c0" "nvim-api" api_config (mkHostConfig api_binds) true]
  ∧ log second = [ EvImagePull "cdaprod/api:latest";
                   EvContainerCreate api_config (mkHostConfig api_binds) "nvim-api" ]
  ∧ ¬ (∃ id force, EvContainerRemove id force ∈ log second)
  ∧ ¬ (∃ n, EvContainerInspect n ∈ log second)
  ∧ res second
    = Err (mkError "Conflict. The container name nvim-api is already in use" false)
  ∧ sim_containers (world (final second)) = sim_containers (world (final first)).
Proof.
  intros first second.
  assert (Hlog : log second = [ EvImagePull "cdaprod/api:latest";
                   EvContainerCreate api_config (mkHostConfig api_binds) "nvim-api" ])
    by (vm_compute; reflexivity).
  split_and!; try (vm_compute; reflexivity).
  - intros (id & force & Hin). rewrite Hlog in Hin. mem Hin.
  - intros (n & Hin). rewrite Hlog in Hin. mem Hin.
Qed.

(** C3 fails on the code: the record of [demo/api] holds the
    project-specific binding [$HOME/data:/data].  The composition the claim
    describes has five entries, with [/home/u/data:/data] before the source
    binding; the bindings StartProject passes to the engine are the four
    that getVolumeBindings returns. *)
Lemma getVolumeBindings_counterexample :
  let st := mkSt machine bindings_config in
  let o := StartProject "demo" "api" st in
  let projectBindings := ["$HOME/data:/data"] in
  viper.Get (config st) (api_key +:+ ".volume_bindings") = Some (viper.VList projectBindings)
  ∧ composeBindings_spec "$HOME" "/home/u" "/home/u/Projects/demo/api" projectBindings
    = [ "/home/u/.config/nvim:/root/.config/nvim";
        "/home/u/.vim:/root/.vim";
        "/home/u/.vimrc:/root/.vimrc";
        "/home/u/data:/data";
        "/home/u/Projects/demo/api:/usr/src/app" ]
  ∧ log o !! 2 = Some (EvContainerCreate api_config (mkHostConfig api_binds) "nvim-api")
  ∧ api_binds = getVolumeBindings "/home/u" "/home/u/Projects/demo/api"
  ∧ getVolumeBindings "/home/u" "/home/u/Projects/demo/api"
    ≠ composeBindings_spec "$HOME" "/home/u" "/home/u/Projects/demo/api" projectBindings.
Proof.
  split_and!; try (vm_compute; reflexivity).
  vm_compute. discriminate.
Qed.

(** C6 fails on the code: the record of [demo/api] has a [repo_url] and
    neither [docker_image] nor [container_name].  Reading it returns no
    error but the triple with two empty strings, and StartProject goes on
    to pull the image named by the empty string. *)
Lemma deriveProjectValues_counterexample :
  let st := mkSt machine partial_config in
  let record := viper.GetStringMapString partial_config api_key in
  viper.IsSet partial_config api_key = true
  ∧ record !! "docker_image" = None
  ∧ record !! "container_name" = None
  ∧ res (deriveProjectValues "demo" "api" st) = Ok ("https://example.com/api.git", "", "")
  ∧ ¬ (∃ e, res (deriveProjectValues "demo" "api" st) = Err e)
  ∧ log (StartProject "demo" "api" st) !! 1 = Some (EvImagePull "").
Proof.
  assert (Hres : res (deriveProjectValues "demo" "api" (mkSt machine partial_config))
                 = Ok ("https://example.com/api.git", "", ""))
    by (vm_compute; reflexivity).
  split_and!; try (vm_compute; reflexivity).
  intros (e & He). rewrite Hres in He. discriminate.
Qed.



(** ** Instances of the theorems *)

Lemma RunContainer_never_removes_witness :
  RunContainer "cdaprod/api:latest" "nvim-api" api_binds ["nvim"] ["HOME=/home/cdaprod"] boot
  = mkOutcome (Ok "c0") busy
      [ EvImagePull "cdaprod/api:latest";
        EvContainerCreate api_config (mkHostConfig api_binds) "nvim-api";
        EvContainerStart "c0" ]
  ∧ RunContainer "cdaprod/api:latest" "nvim-api" api_binds ["nvim"] ["HOME=/home/cdaprod"]
      busy
    = mkOutcome
        (Err (mkError "Conflict. The container name nvim-api is already in use" false))
        busy
        [ EvImagePull "cdaprod/api:latest";
          EvContainerCreate api_config (mkHostConfig api_binds) "nvim-api" ].
Proof.
  split.
  - exact (proj2 (proj2 (proj2 (proj2 (proj2 (proj2
      (RunContainer_never_removes boot "cdaprod/api:latest" "nvim-api" api_binds ["nvim"]
         ["HOME=/home/cdaprod"]))))))
      machine "c0"
      (sim.set_containers
         [mkContainer "c0" "nvim-api" api_config (mkHostConfig api_binds) false] 1 machine)
      None (world busy) eq_refl eq_refl eq_refl eq_refl).
  - exact (proj1 (proj2 (proj2 (proj2 (proj2 (proj2
      (RunContainer_never_removes busy "cdaprod/api:latest" "nvim-api" api_binds ["nvim"]
         ["HOME=/home/cdaprod"]))))))
      (world busy)
      (mkError "Conflict. The container name nvim-api is already in use" false)
      (world busy) eq_refl eq_refl eq_refl).
Defined.

Lemma RunContainer_pull_first_witness :
  let o := RunContainer "cdaprod/ghost:latest" "nvim-ghost" api_binds ["nvim"] [] boot in
  res o = Err (mkError "pull access denied for cdaprod/ghost:latest" false)
  ∧ log o = [EvImagePull "cdaprod/ghost:latest"]
  ∧ world (final o) = machine.
Proof.
  apply (proj2 (proj2 (RunContainer_pull_first boot "cdaprod/ghost:latest" "nvim-ghost"
                         api_binds ["nvim"] []))); reflexivity.
Defined.

Lemma StartProject_env_witness :
  EvContainerCreate api_config (mkHostConfig api_binds) "nvim-api"
    ∈ log (StartProject "demo" "api" boot)
  ∧ Env api_config = ["HOME=/home/cdaprod"].
Proof.
  assert (Hin : EvContainerCreate api_config (mkHostConfig api_binds) "nvim-api"
                  ∈ log (StartProject "demo" "api" boot))
    by (apply (list_elem_of_lookup_2 _ 2); vm_compute; reflexivity).
  split; [exact Hin |].
  exact (StartProject_env boot "demo" "api" _ _ _ Hin).
Defined.

Lemma StartProject_existing_path_no_clone_witness :
  let o := StartProject "demo" "api" cloned in
  os_Stat "/home/u/Projects/demo/api" (world cloned) = None
  ∧ (∀ path url, EvPlainClone path url ∉ log o)
  ∧ (∀ e, res o ≠ Err (Errorf "error cloning repository: " e))
  ∧ (∃ url image name,
       res (deriveProjectValues "demo" "api" cloned) = Ok (url, image, name)
       ∧ o = session "/home/u" "/home/u/Projects/demo/api" image name cloned)
  ∧ res o = Ok tt.
Proof.
  split; [reflexivity |].
  pose proof (StartProject_existing_path_no_clone cloned "demo" "api" "/home/u"
                eq_refl eq_refl) as (Hlog & Hres & Hsession).
  split_and!; [exact Hlog | exact Hres | exact Hsession | vm_compute; reflexivity].
Defined.

Lemma StartProject_binds_witness :
  ∃ host,
    EvContainerCreate api_config host "nvim-api" ∈ log (StartProject "demo" "api" boot)
    ∧ Binds host = [ "/home/u/.config/nvim:/root/.config/nvim";
                     "/home/u/.vim:/root/.vim";
                     "/home/u/.vimrc:/root/.vimrc";
                     "/home/u/Projects/demo/api:/usr/src/app" ].
Proof.
  exists (mkHostConfig api_binds).
  assert (Hin : EvContainerCreate api_config (mkHostConfig api_binds) "nvim-api"
                  ∈ log (StartProject "demo" "api" boot))
    by (apply (list_elem_of_lookup_2 _ 2); vm_compute; reflexivity).
  split; [exact Hin |].
  exact (proj1 (proj2 (StartProject_binds boot "demo" "api" "/home/u" _ _ _ eq_refl Hin))).
Defined.


Lemma deriveProjectValues_no_error_witness :
  res (deriveProjectValues "demo" "api" (mkSt machine partial_config))
    = Ok ("https://example.com/api.git", "", "").
Proof.
  pose proof (deriveProjectValues_no_error (mkSt machine partial_config) "demo" "api")
    as [_ Hrec].
  destruct (Hrec "u" None (subMap (viper.settings partial_config) (viper.keyPath api_key))
              eq_refl) as [Hres _]; [vm_compute; reflexivity |].
  exact Hres.
Defined.


Lemma AddProjectConfig_duplicate_witness :
  let st := final (addProjectCmd "demo" "api" "https://example.com/api.git" boot) in
  let o := AddProjectConfig "demo" "api" "https://other.example/api.git"
             "other/api:v9" "other-api" st in
  res o = Err (mkError
            "repository api already exists under project demo for user u" false)
  ∧ final o = st ∧ log o = [].
Proof.
  exact (AddProjectConfig_duplicate
           (final (addProjectCmd "demo" "api" "https://example.com/api.git" boot))
           "demo" "api" "https://other.example/api.git" "other/api:v9" "other-api" "u"
           eq_refl eq_refl).
Defined.

(** * Further properties of pkg.go *)

(** ** Strings *)

Lemma append_assoc (a b c : string) : (a +:+ b) +:+ c = a +:+ b +:+ c.
Proof.
  induction a as [|x a IH]; [done |].
  change (String x ((a +:+ b) +:+ c) = String x (a +:+ b +:+ c)). by rewrite IH.
Qed.

Lemma lower_byte_idemp (c : ascii) :
  strings.lower_byte (strings.lower_byte c) = strings.lower_byte c.
Proof. by destruct c as [[] [] [] [] [] [] [] []]. Qed.

Lemma ToLower_idemp (s : string) : strings.ToLower (strings.ToLower s) = strings.ToLower s.
Proof. induction s as [|c s IH]; simpl; [done | by rewrite lower_byte_idemp, IH]. Qed.

(** No piece of a split contains the separator. *)
Lemma Split_pieces (s : string) (sep : ascii) :
  Forall (λ piece, strings.Contains piece sep = false) (strings.Split s sep).
Proof.
  induction s as [|c s IH]; simpl.
  - by repeat constructor.
  - case_decide as Hc.
    + by constructor.
    + destruct (strings.Split s sep) as [|h t]; simpl.
      * repeat constructor. simpl. by rewrite decide_False.
      * inversion IH as [|? ? Hh Ht]; subst. constructor; [| done].
        simpl. by rewrite decide_False.
Qed.

Lemma last_Split_no_sep (s : string) (sep : ascii) :
  strings.Contains (List.last (strings.Split s sep) "") sep = false.
Proof.
  pose proof (Split_pieces s sep) as HF. pose proof (Split_not_nil s sep) as Hne.
  induction (strings.Split s sep) as [|h t IH]; [done |].
  inversion HF as [|? ? Hh Ht]; subst.
  destruct t as [|h' t']; [done |]. by apply IH.
Qed.

Lemma Split_no_sep (s : string) (sep : ascii) :
  strings.Contains s sep = false → strings.Split s sep = [s].
Proof.
  induction s as [|c s IH]; simpl; [done |].
  case_decide; [done |]. intros Hs. by rewrite IH.
Qed.

Lemma Contains_lower_dot (s : string) :
  strings.Contains (strings.ToLower s) "." = strings.Contains s ".".
Proof.
  induction s as [|c s IH]; simpl; [done |]. rewrite IH.
  by destruct c as [[] [] [] [] [] [] [] []].
Qed.

(** ** Project keys *)

Lemma ToLower_projectKey (u d r : string) :
  strings.ToLower (projectKey u d r)
  = projectKey (strings.ToLower u) (strings.ToLower d) (strings.ToLower r).
Proof. unfold projectKey. by rewrite !ToLower_app. Qed.

(** Keys are read without regard to letter case. *)
Lemma keyPath_projectKey_case (u d r d' r' : string) :
  strings.ToLower d = strings.ToLower d' →
  strings.ToLower r = strings.ToLower r' →
  viper.keyPath (projectKey u d r) = viper.keyPath (projectKey u d' r').
Proof.
  intros Hd Hr. unfold viper.keyPath. by rewrite !ToLower_projectKey, Hd, Hr.
Qed.

Lemma projectKey_dot (u d r s : string) :
  projectKey u d (r +:+ "." +:+ s) = projectKey u d r +:+ String "." s.
Proof. unfold projectKey. by rewrite !append_assoc. Qed.

Lemma projectKey_repos (u d r : string) :
  projectKey u d r = ("users." +:+ u +:+ ".projects." +:+ d +:+ ".repos") +:+ String "." r.
Proof. unfold projectKey. by rewrite !append_assoc. Qed.

Lemma keyPath_dot (key s : string) :
  viper.keyPath (key +:+ String "." s)
  = viper.keyPath key ++ strings.Split (strings.ToLower s) ".".
Proof.
  unfold viper.keyPath. rewrite ToLower_app.
  change (strings.ToLower (String "." s)) with (String "." (strings.ToLower s)).
  apply Split_app_sep.
Qed.

(** The keys of two repositories of one project part at the repository
    name, when the names have no dot and differ also without regard to
    case. *)
Lemma diverge_sibling_repos (u d r r' : string) :
  strings.Contains r "." = false →
  strings.Contains r' "." = false →
  strings.ToLower r ≠ strings.ToLower r' →
  diverge (viper.keyPath (projectKey u d r)) (viper.keyPath (projectKey u d r')).
Proof.
  intros Hr Hr' Hne.
  exists (viper.keyPath ("users." +:+ u +:+ ".projects." +:+ d +:+ ".repos")),
    (strings.ToLower r), (strings.ToLower r'), [], [].
  rewrite !projectKey_repos, !keyPath_dot.
  rewrite !Split_no_sep by (by rewrite Contains_lower_dot). done.
Qed.

Lemma diverge_app_l (p q suffix : list string) : diverge p q → diverge (p ++ suffix) q.
Proof.
  intros (l & a & b & p' & q' & -> & -> & Hne).
  exists l, a, b, (p' ++ suffix), q'. by rewrite <- app_assoc.
Qed.

(** ** The configuration tree, continued *)

Lemma searchMap_empty (path : list string) : path ≠ [] → viper.searchMap ∅ path = None.
Proof. by destruct path. Qed.

(** A deep assignment leaves every path that parts from its own as it
    was. *)
Lemma searchMap_deepSet_diverge (m : gmap string viper.value) (l : list string)
    (a b : string) (p' q' : list string) (v : viper.value) :
  a ≠ b → p' ≠ [] →
  viper.searchMap (viper.deepSet m (l ++ a :: p') v) (l ++ b :: q')
  = viper.searchMap m (l ++ b :: q').
Proof.
  intros Hab Hp'. revert m. induction l as [|k l IH]; intros m.
  - destruct p' as [|k1 p']; [done |]. simpl app. rewrite deepSet_nested.
    cbn [viper.searchMap]. by rewrite lookup_insert_ne.
  - assert (Hd : ∃ k1 rest, l ++ a :: p' = k1 :: rest)
      by (destruct l; simpl; eauto).
    assert (Hs : ∃ k1 rest, l ++ b :: q' = k1 :: rest)
      by (destruct l; simpl; eauto).
    destruct Hd as (k1 & rest & Hd), Hs as (k2 & rest2 & Hs).
    change ((k :: l) ++ a :: p') with (k :: (l ++ a :: p')).
    change ((k :: l) ++ b :: q') with (k :: (l ++ b :: q')).
    rewrite Hd, deepSet_nested, <- Hd, Hs, !searchMap_nested, <- Hs.
    rewrite lookup_insert_eq, IH. unfold subMap. cbn [viper.searchMap].
    destruct (m !! k) as [[]|]; try done; apply searchMap_empty; by rewrite Hs.
Qed.

Lemma Get_Set_diverge (c : viper.t) (key field key2 : string) (v : viper.value) :
  strings.ToLower field = field →
  strings.Split field "." = [field] →
  diverge (viper.keyPath key) (viper.keyPath key2) →
  viper.Get (viper.Set_ c (key +:+ "." +:+ field) v) key2 = viper.Get c key2.
Proof.
  intros Hlow Hsplit (l & a & b & p' & q' & Hp & Hq & Hne).
  unfold viper.Get, viper.Set_. simpl. rewrite keyPath_field, Hp, Hq by done.
  rewrite <- app_assoc. simpl app. apply searchMap_deepSet_diverge; [done |].
  by destruct p'.
Qed.

(** After a deep assignment every path that leads to the assigned one
    holds a map. *)
Lemma searchMap_deepSet_prefix (m : gmap string viper.value) (p q : list string)
    (v : viper.value) :
  q ≠ [] → ∃ m', viper.searchMap (viper.deepSet m (p ++ q) v) p = Some (viper.VMap m').
Proof.
  intros Hq. revert m. induction p as [|k p IH]; intros m; [by eexists |].
  assert (Hd : ∃ k1 rest, p ++ q = k1 :: rest)
    by (destruct p, q; simpl; eauto; done).
  destruct Hd as (k1 & rest & Hd).
  change ((k :: p) ++ q) with (k :: (p ++ q)). rewrite Hd, deepSet_nested, <- Hd.
  destruct p as [|k2 p].
  - cbn [viper.searchMap]. rewrite lookup_insert_eq. by eexists.
  - rewrite searchMap_nested, lookup_insert_eq. apply IH.
Qed.

(** ** The functions, over any platform *)

Section MoreProperties.
Context {W : Type} `{Platform W}.
Implicit Types (st : St W).

(** *** getUsername *)

(** X1: a user name that getUsername returns holds no slash: it is the
    part of [Username] after the last slash, the whole of it when there is
    none. *)
Theorem getUsername_no_slash (w : W) username :
  getUsername w = (username, None) →
  strings.Contains username "/" = false
  ∧ ∃ full, user_Current w = Ok full
            ∧ username = List.last (strings.Split full "/") "".
Proof.
  unfold getUsername. destruct (user_Current w) as [full|e]; [| done].
  destruct (strings.Contains full "/") eqn:Hc; intros [= <-].
  - split; [apply last_Split_no_sep | eauto].
  - split; [done |]. exists full. by rewrite Split_no_sep.
Qed.

(** *** RunContainer, RemoveContainer *)

(** X2: when RunContainer returns an ID, it has pulled, created and
    started, in this order and nothing else, the started container is the
    one whose ID it returns, and the configuration is untouched. *)
Theorem RunContainer_success st image name binds cmd env id :
  let o := RunContainer image name binds cmd env st in
  res o = Ok id →
  log o = [ EvImagePull image;
            EvContainerCreate (mkConfig image cmd env true) (mkHostConfig binds) name;
            EvContainerStart id ]
  ∧ config (final o) = config st.
Proof.
  intros o. subst o. run. repeat branch; intros [=]; by subst.
Qed.

(** X3: RemoveContainer issues nothing when the client cannot be built,
    and returns that error wrapped; otherwise it issues one removal, of the
    given ID and forced, and returns the engine's answer as it is. *)
Theorem RemoveContainer_calls st id :
  let o := RemoveContainer id st in
  match client_NewClientWithOpts (world st) with
  | Some e => o = mkOutcome (Err (Errorf "error creating Docker client: " e)) st []
  | None =>
      let '(err, w) := cli_ContainerRemove id true (world st) in
      log o = [EvContainerRemove id true]
      ∧ final o = mkSt w (config st)
      ∧ res o = match err with Some e => Err e | None => Ok tt end
  end.
Proof.
  intros o. subst o. run. repeat branch; done.
Qed.

(** *** StartProject *)

(** X4: when the home directory cannot be determined, StartProject stops
    at once: it returns that error wrapped and has called nothing. *)
Theorem StartProject_home_error st projectDirName repoName e :
  os_UserHomeDir (world st) = Err e →
  StartProject projectDirName repoName st
  = mkOutcome (Err (Errorf "error getting home directory: " e)) st [].
Proof. intros E. run. by rewrite E. Qed.

(** X5: a clone that fails ends the session before the engine is used:
    StartProject returns the clone error wrapped, and the clone is the
    only call it has made. *)
Theorem StartProject_clone_failure st projectDirName repoName homeDir url image name e w :
  os_UserHomeDir (world st) = Ok homeDir →
  res (deriveProjectValues projectDirName repoName st) = Ok (url, image, name) →
  let projectPath := filepath_Join [homeDir; "Projects"; projectDirName; repoName] in
  os_IsNotExist (os_Stat projectPath (world st)) = true →
  git_PlainClone projectPath url (world st) = (Some e, w) →
  let o := StartProject projectDirName repoName st in
  res o = Err (Errorf "error cloning repository: " e)
  ∧ log o = [EvPlainClone projectPath url]
  ∧ final o = mkSt w (config st).
Proof.
  intros Ehome Ed projectPath Estat Eclone o. subst o projectPath. revert Ed.
  run. rewrite Ehome.
  destruct (getUsername (world st)) as [username err].
  destruct (viper.IsSet _ _); cbn [res final log world config app];
    intros [= <- <- <-]; rewrite Estat, Eclone; done.
Qed.

(** X6: only a "does not exist" answer of [os.Stat] leads to a clone; with
    any other error of [os.Stat] the directory is taken as present and
    nothing is cloned. *)
Theorem StartProject_stat_error_skips_clone st projectDirName repoName homeDir e :
  os_UserHomeDir (world st) = Ok homeDir →
  os_Stat (filepath_Join [homeDir; "Projects"; projectDirName; repoName]) (world st)
    = Some e →
  not_exist e = false →
  ∀ path url, EvPlainClone path url ∉ log (StartProject projectDirName repoName st).
Proof.
  intros Ehome Estat Hne. run. rewrite Ehome.
  repeat first [rewrite Estat; cbn [os_IsNotExist]; rewrite Hne | branch];
    intros path url Hin; mem Hin.
Qed.

(** X7: a session that ends well has made, after the clone if one was
    needed, exactly these calls: pull, create, start, the interactive
    [docker exec ... nvim] and a forced removal; the container attached to
    and the container removed are the one that was started. *)
Theorem StartProject_success_shape st projectDirName repoName :
  let o := StartProject projectDirName repoName st in
  res o = Ok tt →
  ∃ clone cfg host name id,
    log o = clone ++ [ EvImagePull (Image cfg);
                       EvContainerCreate cfg host name;
                       EvContainerStart id;
                       EvRun ["docker"; "exec"; "-it"; id; "nvim"];
                       EvContainerRemove id true ]
    ∧ (clone = [] ∨ ∃ path url, clone = [EvPlainClone path url])
    ∧ Cmd cfg = ["nvim"] ∧ Tty cfg = true.
Proof.
  intros o. subst o. run.
  repeat branch; intros [=];
    first
      [ eexists [], (mkConfig _ _ _ _), _, _, _; split_and!;
          [reflexivity | eauto | done | done]
      | eexists [_], (mkConfig _ _ _ _), _, _, _; split_and!;
          [reflexivity | eauto | done | done] ].
Qed.

(** X8: when RunContainer fails, also after the container was created,
    StartProject returns its error as [error running container: ...]; its
    calls are those of RunContainer, after the clone if there was one, so
    it neither attaches nor removes anything. *)
Theorem StartProject_run_error_no_cleanup st projectDirName repoName homeDir url image name :
  os_UserHomeDir (world st) = Ok homeDir →
  res (deriveProjectValues projectDirName repoName st) = Ok (url, image, name) →
  let projectPath := filepath_Join [homeDir; "Projects"; projectDirName; repoName] in
  let run st1 := RunContainer image name (getVolumeBindings homeDir projectPath) ["nvim"]
                   ["HOME=/home/cdaprod"] st1 in
  let o := StartProject projectDirName repoName st in
  (∀ e, os_IsNotExist (os_Stat projectPath (world st)) = false →
     res (run st) = Err e →
     o = mkOutcome (Err (Errorf "error running container: " e))
           (final (run st)) (log (run st)))
  ∧ (∀ e w1, os_IsNotExist (os_Stat projectPath (world st)) = true →
       git_PlainClone projectPath url (world st) = (None, w1) →
       res (run (mkSt w1 (config st))) = Err e →
       o = mkOutcome (Err (Errorf "error running container: " e))
             (final (run (mkSt w1 (config st))))
             (EvPlainClone projectPath url :: log (run (mkSt w1 (config st)))))
  ∧ (∀ e, res o = Err (Errorf "error running container: " e) →
       (∀ argv, EvRun argv ∉ log o) ∧ (∀ id force, EvContainerRemove id force ∉ log o)).
Proof.
  intros Ehome Ed projectPath run o. subst projectPath run o. split_and!.
  - intros e Estat Erun.
    rewrite (StartProject_existing st _ _ homeDir url image name Ehome Ed Estat).
    by apply session_run_error.
  - intros e w1 Estat Eclone Erun.
    rewrite (StartProject_cloned st _ _ homeDir url image name w1 Ehome Ed Estat Eclone).
    cbv zeta. by rewrite (session_run_error _ _ _ _ _ e Erun).
  - clear Ehome Ed. intros e. run.
    repeat branch; intros [=]; (split; [intros argv Hin | intros id force Hin]); mem Hin.
Qed.

(** X9: StartProject only reads the configuration: it leaves it as it
    found it and never writes the configuration file. *)
Theorem StartProject_config_readonly st projectDirName repoName :
  let o := StartProject projectDirName repoName st in
  config (final o) = config st
  ∧ (∀ file m, EvWriteConfigAs file m ∉ log o)
  ∧ (∀ file m, EvSafeWriteConfigAs file m ∉ log o).
Proof.
  intros o. subst o. run.
  repeat branch; (split_and!; [done | intros file m Hin; mem Hin ..]).
Qed.

(** X19: StartProject acts on the identity that deriveProjectValues
    resolves: it clones that URL into the project path, pulls that image
    and creates the container under that name from that image, running
    [nvim] on a terminal. *)
Theorem StartProject_uses_identity st d r homeDir url image name :
  os_UserHomeDir (world st) = Ok homeDir →
  res (deriveProjectValues d r st) = Ok (url, image, name) →
  let o := StartProject d r st in
  (∀ path u, EvPlainClone path u ∈ log o →
     path = filepath_Join [homeDir; "Projects"; d; r] ∧ u = url)
  ∧ (∀ i, EvImagePull i ∈ log o → i = image)
  ∧ (∀ cfg host n, EvContainerCreate cfg host n ∈ log o →
       Image cfg = image ∧ n = name ∧ Cmd cfg = ["nvim"] ∧ Tty cfg = true).
Proof.
  intros Ehome Ed o. subst o. revert Ed. run. rewrite Ehome.
  destruct (getUsername (world st)) as [username err].
  destruct (viper.IsSet _ _); cbn [res final log world config app];
    intros [= <- <- <-]; repeat branch;
    (split_and!; [intros path u Hin | intros i Hin | intros cfg host n Hin];
     mem Hin; done).
Qed.

(** *** deriveProjectValues *)

(** X10: the identity of a project does not depend on the letter case in
    which its directory and repository are named: two spellings that agree
    in lower case resolve to the same values. *)
Theorem deriveProjectValues_case_insensitive st d r d' r' :
  strings.ToLower d = strings.ToLower d' →
  strings.ToLower r = strings.ToLower r' →
  deriveProjectValues d r st = deriveProjectValues d' r' st.
Proof.
  intros Hd Hr. run. destruct (getUsername (world st)) as [username err].
  unfold viper.IsSet, viper.GetStringMapString, viper.Get.
  by rewrite (keyPath_projectKey_case username d r d' r'), Hr.
Qed.

(** *** AddProjectConfig *)

(** AddProjectConfig past its duplicate check: the configuration it
    leaves, whatever becomes of the file. *)
Lemma AddProjectConfig_config st d r repoURL dockerImage containerName username :
  getUsername (world st) = (username, None) →
  viper.IsSet (config st) (projectKey username d r) = false →
  config (final (AddProjectConfig d r repoURL dockerImage containerName st))
  = with_record (config st) (projectKey username d r) repoURL dockerImage containerName.
Proof.
  intros E Hunset. run. rewrite E. cbn [res final log world config app].
  rewrite Hunset. repeat branch; done.
Qed.

(** X11: when the user cannot be determined, AddProjectConfig returns
    that error wrapped, changes nothing and writes nothing. *)
Theorem AddProjectConfig_username_error st d r repoURL dockerImage containerName e :
  user_Current (world st) = Err e →
  AddProjectConfig d r repoURL dockerImage containerName st
  = mkOutcome (Err (Errorf "error getting username: " e)) st [].
Proof. intros E. run. unfold getUsername. by rewrite E. Qed.



(** X14: adding the same project twice: the second call is rejected as a
    duplicate and changes nothing, whether or not the first call could
    write the file. *)
Theorem AddProjectConfig_twice st d r repoURL dockerImage containerName
    repoURL' dockerImage' containerName' username :
  getUsername (world st) = (username, None) →
  viper.IsSet (config st) (projectKey username d r) = false →
  let o1 := AddProjectConfig d r repoURL dockerImage containerName st in
  getUsername (world (final o1)) = (username, None) →
  let o2 := AddProjectConfig d r repoURL' dockerImage' containerName' (final o1) in
  res o2 = Err (mkError ("repository " +:+ r +:+ " already exists under project "
                           +:+ d +:+ " for user " +:+ username) false)
  ∧ final o2 = final o1 ∧ log o2 = [].
Proof.
  intros E Hunset o1 E1 o2.
  pose proof (AddProjectConfig_sets_key st d r repoURL dockerImage containerName
                username E Hunset) as Hset.
  cbv zeta in Hset. subst o1 o2. revert E1 Hset.
  generalize (final (AddProjectConfig d r repoURL dockerImage containerName st)).
  intros st1 E1 Hset. run. rewrite E1. cbn [res final log world config app]. by rewrite Hset.
Qed.

(** X15: a project key that differs from a stored one only in letter case
    is a duplicate: AddProjectConfig rejects it and changes nothing. *)
Theorem AddProjectConfig_duplicate_case st d r d' r' repoURL dockerImage containerName
    username :
  strings.ToLower d = strings.ToLower d' →
  strings.ToLower r = strings.ToLower r' →
  getUsername (world st) = (username, None) →
  viper.IsSet (config st) (projectKey username d r) = true →
  let o := AddProjectConfig d' r' repoURL dockerImage containerName st in
  res o = Err (mkError ("repository " +:+ r' +:+ " already exists under project "
                          +:+ d' +:+ " for user " +:+ username) false)
  ∧ final o = st ∧ log o = [].
Proof.
  intros Hd Hr E Hset o. subst o. run. rewrite E.
  cbn [res final log world config app].
  assert (Hset' : viper.IsSet (config st) (projectKey username d' r') = true).
  { revert Hset. unfold viper.IsSet, viper.Get.
    by rewrite (keyPath_projectKey_case username d r d' r'). }
  by rewrite Hset'.
Qed.

(** X16: adding a repository leaves the record of every other repository
    of the same project as it was, for names in ASCII without a dot that
    differ also without regard to case. *)
Theorem AddProjectConfig_other_repo st d r r' repoURL dockerImage containerName username :
  getUsername (world st) = (username, None) →
  is_ascii r = true →
  is_ascii r' = true →
  strings.Contains r "." = false →
  strings.Contains r' "." = false →
  strings.ToLower r ≠ strings.ToLower r' →
  let o := AddProjectConfig d r repoURL dockerImage containerName st in
  viper.Get (config (final o)) (projectKey username d r')
  = viper.Get (config st) (projectKey username d r').
Proof.
  intros E _ _ Hr Hr' Hne o. subst o.
  pose proof (diverge_sibling_repos username d r r' Hr Hr' Hne) as Hdiv.
  destruct (viper.IsSet (config st) (projectKey username d r)) eqn:Hset.
  - run. rewrite E. cbn [res final log world config app]. by rewrite Hset.
  - rewrite (AddProjectConfig_config _ _ _ _ _ _ _ E Hset). unfold with_record.
    change (projectKey username d r +:+ ".container_name")
      with (projectKey username d r +:+ "." +:+ "container_name").
    change (projectKey username d r +:+ ".docker_image")
      with (projectKey username d r +:+ "." +:+ "docker_image").
    change (projectKey username d r +:+ ".repo_url")
      with (projectKey username d r +:+ "." +:+ "repo_url").
    by rewrite !Get_Set_diverge.
Qed.

(** X17: a dot in a repository name nests the key: once [r.s] is added,
    the key of the repository [r] is set as well, and adding [r] is
    rejected as a duplicate although [r] has no record of its own. *)
Theorem AddProjectConfig_dotted_name st d r s repoURL dockerImage containerName
    repoURL' dockerImage' containerName' username :
  getUsername (world st) = (username, None) →
  viper.IsSet (config st) (projectKey username d (r +:+ "." +:+ s)) = false →
  let o1 := AddProjectConfig d (r +:+ "." +:+ s) repoURL dockerImage containerName st in
  getUsername (world (final o1)) = (username, None) →
  let o2 := AddProjectConfig d r repoURL' dockerImage' containerName' (final o1) in
  viper.IsSet (config (final o1)) (projectKey username d r) = true
  ∧ res o2 = Err (mkError ("repository " +:+ r +:+ " already exists under project "
                             +:+ d +:+ " for user " +:+ username) false)
  ∧ final o2 = final o1.
Proof.
  intros E Hunset o1 E1 o2.
  assert (Hset : viper.IsSet (config (final o1)) (projectKey username d r) = true).
  { subst o1. rewrite (AddProjectConfig_config _ _ _ _ _ _ _ E Hunset).
    unfold with_record, viper.IsSet, viper.Get, viper.Set_ at 1. cbn [viper.settings].
    change (projectKey username d (r +:+ "." +:+ s) +:+ ".container_name")
      with (projectKey username d (r +:+ "." +:+ s) +:+ "." +:+ "container_name").
    rewrite keyPath_field, projectKey_dot, keyPath_dot, <- app_assoc by done.
    edestruct searchMap_deepSet_prefix as [m' ->]; [| done].
    pose proof (Split_not_nil (strings.ToLower s) "."). by destruct (strings.Split _ _). }
  split; [done |]. subst o1 o2. revert E1 Hset.
  generalize (final (AddProjectConfig d (r +:+ "." +:+ s) repoURL dockerImage
                       containerName st)).
  intros st1 E1 Hset. run. rewrite E1. cbn [res final log world config app]. by rewrite Hset.
Qed.

(** *** The add command, then the resolver *)


End MoreProperties.

(** ** Instances of the further properties *)

Lemma getUsername_no_slash_witness :
  getUsername (world path_user) = ("cdaprod", None)
  ∧ strings.Contains "cdaprod" "/" = false.
Proof.
  split; [reflexivity |].
  exact (proj1 (getUsername_no_slash (world path_user) "cdaprod" eq_refl)).
Defined.

Lemma RunContainer_success_witness :
  let o := RunContainer "cdaprod/api:latest" "nvim-api" api_binds ["nvim"]
             ["HOME=/home/cdaprod"] boot in
  log o = [ EvImagePull "cdaprod/api:latest";
            EvContainerCreate api_config (mkHostConfig api_binds) "nvim-api";
            EvContainerStart "c0" ]
  ∧ config (final o) = no_config.
Proof.
  exact (RunContainer_success boot "cdaprod/api:latest" "nvim-api" api_binds ["nvim"]
           ["HOME=/home/cdaprod"] "c0" eq_refl).
Defined.

Lemma StartProject_home_error_witness :
  StartProject "demo" "api" homeless
  = mkOutcome (Err (mkError "error getting home directory: $HOME is not defined" false))
      homeless [].
Proof.
  exact (StartProject_home_error homeless "demo" "api"
           (mkError "$HOME is not defined" false) eq_refl).
Defined.

Lemma StartProject_clone_failure_witness :
  let o := StartProject "demo" "api" offline in
  res o = Err (mkError "error cloning repository: repository not found" false)
  ∧ log o = [EvPlainClone "/home/u/Projects/demo/api" "https://github.com/Cdaprod/api.git"]
  ∧ final o = offline.
Proof.
  exact (StartProject_clone_failure offline "demo" "api" "/home/u"
           "https://github.com/Cdaprod/api.git" "cdaprod/api:latest" "nvim-api"
           (mkError "repository not found" false) (world offline)
           eq_refl eq_refl eq_refl eq_refl).
Defined.

Lemma StartProject_stat_error_skips_clone_witness :
  let o := @StartProject Sim denied_platform "demo" "api" boot in
  res o = Ok tt ∧ ∀ path url, EvPlainClone path url ∉ log o.
Proof.
  split; [vm_compute; reflexivity |].
  exact (@StartProject_stat_error_skips_clone Sim denied_platform boot "demo" "api"
           "/home/u" (mkError "stat /home/u/Projects/demo/api: permission denied" false)
           eq_refl eq_refl eq_refl).
Defined.

Lemma StartProject_success_shape_witness :
  ∃ clone cfg host name id,
    log (StartProject "demo" "api" boot)
    = clone ++ [ EvImagePull (Image cfg);
                 EvContainerCreate cfg host name;
                 EvContainerStart id;
                 EvRun ["docker"; "exec"; "-it"; id; "nvim"];
                 EvContainerRemove id true ]
    ∧ (clone = [] ∨ ∃ path url, clone = [EvPlainClone path url])
    ∧ Cmd cfg = ["nvim"] ∧ Tty cfg = true.
Proof.
  exact (StartProject_success_shape boot "demo" "api" eq_refl).
Defined.

Lemma StartProject_run_error_no_cleanup_witness :
  let o := StartProject "demo" "api" busy in
  o = mkOutcome
        (Err (mkError
           "error running container: Conflict. The container name nvim-api is already in use"
           false))
        (mkSt (sim.set_files (cons "/home/u/Projects/demo/api") (world busy)) no_config)
        [ EvPlainClone "/home/u/Projects/demo/api" "https://github.com/Cdaprod/api.git";
          EvImagePull "cdaprod/api:latest";
          EvContainerCreate api_config (mkHostConfig api_binds) "nvim-api" ]
  ∧ (∀ argv, EvRun argv ∉ log o)
  ∧ (∀ id force, EvContainerRemove id force ∉ log o).
Proof.
  pose proof (StartProject_run_error_no_cleanup busy "demo" "api" "/home/u"
                "https://github.com/Cdaprod/api.git" "cdaprod/api:latest" "nvim-api"
                eq_refl eq_refl) as (_ & Hcloned & Hnone).
  split.
  - exact (Hcloned
             (mkError "Conflict. The container name nvim-api is already in use" false)
             (sim.set_files (cons "/home/u/Projects/demo/api") (world busy))
             eq_refl eq_refl eq_refl).
  - exact (Hnone
             (mkError "Conflict. The container name nvim-api is already in use" false)
             eq_refl).
Defined.

Lemma StartProject_uses_identity_witness :
  let o := StartProject "demo" "api" (mkSt machine custom_config) in
  (∀ path u, EvPlainClone path u ∈ log o →
     path = "/home/u/Projects/demo/api" ∧ u = "https://example.com/api.git")
  ∧ (∀ i, EvImagePull i ∈ log o → i = "example/api:v2")
  ∧ (∀ cfg host n, EvContainerCreate cfg host n ∈ log o →
       Image cfg = "example/api:v2" ∧ n = "api-dev" ∧ Cmd cfg = ["nvim"] ∧ Tty cfg = true).
Proof.
  exact (StartProject_uses_identity (mkSt machine custom_config) "demo" "api" "/home/u"
           "https://example.com/api.git" "example/api:v2" "api-dev" eq_refl eq_refl).
Defined.

Lemma deriveProjectValues_case_insensitive_witness :
  deriveProjectValues "Demo" "API" (mkSt machine custom_config)
  = deriveProjectValues "demo" "api" (mkSt machine custom_config).
Proof.
  exact (deriveProjectValues_case_insensitive (mkSt machine custom_config)
           "Demo" "API" "demo" "api" eq_refl eq_refl).
Defined.

Lemma AddProjectConfig_username_error_witness :
  AddProjectConfig "demo" "api" "https://example.com/api.git" "cdaprod/api:latest"
    "nvim-api" homeless
  = mkOutcome
      (Err (mkError "error getting username: user: Current not implemented" false))
      homeless [].
Proof.
  exact (AddProjectConfig_username_error homeless "demo" "api" _ _ _
           (mkError "user: Current not implemented" false) eq_refl).
Defined.



Lemma AddProjectConfig_twice_witness :
  let o1 := AddProjectConfig "demo" "api" "https://example.com/api.git"
              "cdaprod/api:latest" "nvim-api" boot in
  let o2 := AddProjectConfig "demo" "api" "https://other.example/api.git"
              "other/api:v9" "other-api" (final o1) in
  res o2 = Err (mkError "repository api already exists under project demo for user u" false)
  ∧ final o2 = final o1 ∧ log o2 = [].
Proof.
  exact (AddProjectConfig_twice boot "demo" "api" "https://example.com/api.git"
           "cdaprod/api:latest" "nvim-api" "https://other.example/api.git"
           "other/api:v9" "other-api" "u" eq_refl eq_refl eq_refl).
Defined.

Lemma AddProjectConfig_duplicate_case_witness :
  let o := AddProjectConfig "Demo" "API" "https://other.example/api.git"
             "other/api:v9" "other-api" added in
  res o = Err (mkError "repository API already exists under project Demo for user u" false)
  ∧ final o = added ∧ log o = [].
Proof.
  exact (AddProjectConfig_duplicate_case added "demo" "api" "Demo" "API"
           "https://other.example/api.git" "other/api:v9" "other-api" "u"
           eq_refl eq_refl eq_refl eq_refl).
Defined.

Lemma AddProjectConfig_other_repo_witness :
  let o := AddProjectConfig "demo" "web" "https://example.com/web.git"
             "cdaprod/web:latest" "nvim-web" added in
  res o = Ok tt
  ∧ viper.Get (config (final o)) api_key = viper.Get (config added) api_key.
Proof.
  split; [vm_compute; reflexivity |].
  refine (AddProjectConfig_other_repo added "demo" "web" "api"
            "https://example.com/web.git" "cdaprod/web:latest" "nvim-web" "u"
            eq_refl eq_refl eq_refl eq_refl eq_refl _).
  vm_compute. discriminate.
Defined.

Lemma AddProjectConfig_dotted_name_witness :
  let o1 := AddProjectConfig "demo" "next.js" "https://example.com/next.js.git"
              "cdaprod/next.js:latest" "nvim-next.js" boot in
  let o2 := AddProjectConfig "demo" "next" "https://example.com/next.git"
              "cdaprod/next:latest" "nvim-next" (final o1) in
  res o1 = Ok tt
  ∧ viper.IsSet (config (final o1)) "users.u.projects.demo.repos.next" = true
  ∧ res o2 = Err (mkError "repository next already exists under project demo for user u"
                    false)
  ∧ final o2 = final o1.
Proof.
  split; [vm_compute; reflexivity |].
  exact (AddProjectConfig_dotted_name boot "demo" "next" "js"
           "https://example.com/next.js.git" "cdaprod/next.js:latest" "nvim-next.js"
           "https://example.com/next.git" "cdaprod/next:latest" "nvim-next" "u"
           eq_refl eq_refl eq_refl).
Defined.

